(** * Console diagnostics and performance monitoring

    A shallow embedding of [claude-agent-runtime/utils/diagnostics.py]
    ([ConsoleDiagnostics], [PerformanceMonitor], [TestReporter]), of the
    console collector of the browser driver, of the polling loop of the
    agent and of the final verdicts of the page tests, with the properties
    the specification states and the code shows. The report aggregator, the
    session store and the trend analyzer of the specification are not among
    the sources; they are modelled from the specification, and said to be so
    where they are defined.

    Conventions of the model.
    - A Python [str] is a [string]; [str.lower] acts on the letters A-Z and
      leaves every other character alone, which is what it does on the log
      lines the driver produces ("[TYPE] text").
    - A Python [float] sample is an exact rational ([Q]); rounding and NaN
      are not modelled, so what is stated about samples is what holds
      whatever the arithmetic does with them.
    - [datetime.now()] is an extra argument of the operations that read the
      clock.
    - [self] is threaded explicitly; methods that touch the monitor's
      dictionaries run in the small state monad [PerformanceMonitor.M]. *)

From Stdlib Require Import Ascii QArith Qfield Lqa.
From Stdlib Require DecimalString.
From stdpp Require Import base option list strings gmap fin_maps.

Local Open Scope nat_scope.

(** ** Text: [str.lower] and the [in] operator on strings *)

Module Text.

Definition lower_char (c : ascii) : ascii :=
  let n := Ascii.nat_of_ascii c in
  if (65 <=? n) && (n <=? 90) then Ascii.ascii_of_nat (n + 32) else c.

Fixpoint lower (s : string) : string :=
  match s with
  | EmptyString => EmptyString
  | String c s' => String (lower_char c) (lower s')
  end.

(** [needle in hay]: some suffix of [hay] starts with [needle]. *)
Fixpoint contains (needle hay : string) : bool :=
  String.prefix needle hay ||
  match hay with
  | EmptyString => false
  | String _ hay' => contains needle hay'
  end.

End Text.

(** ** ConsoleDiagnostics *)

Module ConsoleDiagnostics.

Import Text.

(** The keys of [self.categories], in the order [__init__] inserts them. *)
Inductive Category : Type :=
| Errors | Warnings | Info | Debug | Network | Other.

#[global] Instance Category_eq_dec : EqDecision Category.
Proof. solve_decision. Defined.

Definition all_categories : list Category :=
  [Errors; Warnings; Info; Debug; Network; Other].

Definition key (c : Category) : string :=
  match c with
  | Errors => "errors" | Warnings => "warnings" | Info => "info"
  | Debug => "debug" | Network => "network" | Other => "other"
  end.

(** The object: [self.logs] and the six lists of [self.categories]. *)
Record t : Type := mk {
  logs : list string;
  errors : list string;
  warnings : list string;
  info : list string;
  debug : list string;
  network : list string;
  other : list string
}.

(** [__init__] *)
Definition init : t := mk [] [] [] [] [] [] [].

(** [self.categories[key c]] *)
Definition categories (c : Category) (self : t) : list string :=
  match c with
  | Errors => errors self | Warnings => warnings self | Info => info self
  | Debug => debug self | Network => network self | Other => other self
  end.

(** [self.categories[key c].append(log)] *)
Definition push (c : Category) (log : string) (self : t) : t :=
  match c with
  | Errors => mk (logs self) (errors self ++ [log]) (warnings self) (info self)
                 (debug self) (network self) (other self)
  | Warnings => mk (logs self) (errors self) (warnings self ++ [log]) (info self)
                   (debug self) (network self) (other self)
  | Info => mk (logs self) (errors self) (warnings self) (info self ++ [log])
               (debug self) (network self) (other self)
  | Debug => mk (logs self) (errors self) (warnings self) (info self)
                (debug self ++ [log]) (network self) (other self)
  | Network => mk (logs self) (errors self) (warnings self) (info self)
                  (debug self) (network self ++ [log]) (other self)
  | Other => mk (logs self) (errors self) (warnings self) (info self)
                (debug self) (network self) (other self ++ [log])
  end.

(** [_categorize_log]: the if/elif chain of the source, branch by branch. *)
Definition _categorize_log (log : string) (self : t) : t :=
  let log_lower := lower log in
  if contains "[error]" log_lower || contains "[page_error]" log_lower then
    mk (logs self) (errors self ++ [log]) (warnings self) (info self)
       (debug self) (network self) (other self)
  else if contains "[warning]" log_lower || contains "[warn]" log_lower then
    mk (logs self) (errors self) (warnings self ++ [log]) (info self)
       (debug self) (network self) (other self)
  else if contains "[info]" log_lower || contains "[log]" log_lower then
    mk (logs self) (errors self) (warnings self) (info self ++ [log])
       (debug self) (network self) (other self)
  else if contains "[debug]" log_lower then
    mk (logs self) (errors self) (warnings self) (info self)
       (debug self ++ [log]) (network self) (other self)
  else if contains "network" log_lower || contains "fetch" log_lower
          || contains "xhr" log_lower then
    mk (logs self) (errors self) (warnings self) (info self)
       (debug self) (network self ++ [log]) (other self)
  else
    mk (logs self) (errors self) (warnings self) (info self)
       (debug self) (network self) (other self ++ [log]).

(** [add_log] *)
Definition add_log (log : string) (self : t) : t :=
  let self := mk (logs self ++ [log]) (errors self) (warnings self)
                 (info self) (debug self) (network self) (other self) in
  _categorize_log log self.

(** [add_logs]: the [for] loop. *)
Fixpoint add_logs (ls : list string) (self : t) : t :=
  match ls with
  | [] => self
  | log :: ls' => add_logs ls' (add_log log self)
  end.

Definition get_errors (self : t) : list string := categories Errors self.
Definition get_warnings (self : t) : list string := categories Warnings self.
Definition get_network_logs (self : t) : list string := categories Network self.

(** [len(self.categories["errors"]) > 0] *)
Definition has_errors (self : t) : bool := 0 <? length (categories Errors self).
Definition has_warnings (self : t) : bool := 0 <? length (categories Warnings self).

(** [get_summary]: the dict comprehension, as the list of its items. *)
Definition get_summary (self : t) : list (string * nat) :=
  (fun c => (key c, length (categories c self))) <$> all_categories.

(** [clear] *)
Definition clear (self : t) : t := init.

(** The kind a call of [_categorize_log] is seen to assign: the category
    whose list grew by one. *)
Definition observed_kind (log : string) (self : t) : option Category :=
  List.find
    (fun c => length (categories c (_categorize_log log self))
              =? S (length (categories c self)))
    all_categories.

(** The decision of the chain alone, read off a fresh object. *)
Definition classify (log : string) : Category :=
  default Other (observed_kind log init).

(** The classifier as the specification words it: an ordered rule table
    over the lower-cased line, first match wins, [Other] when none does. *)
Definition rule_table : list (list string * Category) :=
  [ (["[error]"; "[page_error]"], Errors);
    (["[warning]"; "[warn]"], Warnings);
    (["[info]"; "[log]"], Info);
    (["[debug]"], Debug);
    (["network"; "fetch"; "xhr"], Network) ].

Definition rule_matches (text : string) (r : list string * Category) : bool :=
  existsb (fun needle => contains needle text) r.1.

Definition first_match (rules : list (list string * Category)) (text : string)
  : Category :=
  match List.find (rule_matches text) rules with
  | Some r => r.2
  | None => Other
  end.

(** A program over the two mutators, and the logs it hands over. *)
Inductive Call : Type :=
| AddLog (log : string)
| AddLogs (ls : list string).

Definition call (c : Call) (self : t) : t :=
  match c with
  | AddLog log => add_log log self
  | AddLogs ls => add_logs ls self
  end.

Definition run (cs : list Call) (self : t) : t :=
  fold_left (fun d c => call c d) cs self.

Definition added (cs : list Call) : list string :=
  concat ((fun c => match c with AddLog l => [l] | AddLogs ls => ls end) <$> cs).

End ConsoleDiagnostics.

(** ** The final verdict of [test-emojifusion-local.py] *)

Module TestEmojifusion.

Import ConsoleDiagnostics.

(** The three messages the script can end on. *)
Inductive Verdict : Type :=
| TEST_PASSED | TEST_PARTIAL | TEST_FAILED.

#[global] Instance Verdict_eq_dec : EqDecision Verdict.
Proof. solve_decision. Defined.

(** Lines 126-131; [combos_count] is the length the page script returned. *)
Definition final_verdict (diagnostics : ConsoleDiagnostics.t) (combos_count : Z)
  : Verdict :=
  if negb (has_errors diagnostics) && (0 <? combos_count)%Z then TEST_PASSED
  else if (0 <? combos_count)%Z && has_errors diagnostics then TEST_PARTIAL
  else TEST_FAILED.

(** The run as far as the verdict depends on it: a fresh
    [ConsoleDiagnostics()], [add_logs] of the driver's console logs, then
    the verdict. *)
Definition test_emojifusion (console_logs : list string) (combos_count : Z)
  : Verdict :=
  let diagnostics := ConsoleDiagnostics.init in
  let diagnostics := add_logs console_logs diagnostics in
  final_verdict diagnostics combos_count.

End TestEmojifusion.

(** ** Python builtins on lists of numbers *)

Module Py.

Definition Qltb (x y : Q) : bool := negb (Qle_bool y x).

(** [sum(values)]: left to right from 0. *)
Definition sum (values : list Q) : Q := fold_left Qplus values 0%Q.

(** [len(values)] as a number. *)
Definition len (values : list Q) : Q := inject_Z (Z.of_nat (length values)).

(** [min] of a sequence with first item [x]: a later item replaces the
    candidate only when it is strictly smaller. *)
Definition min (x : Q) (rest : list Q) : Q :=
  fold_left (fun best v => if Qltb v best then v else best) rest x.

(** [max]: a later item replaces the candidate only when strictly greater. *)
Definition max (x : Q) (rest : list Q) : Q :=
  fold_left (fun best v => if Qltb best v then v else best) rest x.

(** [d[k]] on a [defaultdict(list)]: a missing key is bound to a new empty
    list, which is what the lookup returns. *)
Definition defaultdict_getitem {V : Type} (k : string) (d : gmap string (list V))
  : list V * gmap string (list V) :=
  match d !! k with
  | Some l => (l, d)
  | None => ([], <[k := []]> d)
  end.

(** [d[k].append(v)] *)
Definition defaultdict_append {V : Type} (k : string) (v : V)
  (d : gmap string (list V)) : gmap string (list V) :=
  let '(l, d') := defaultdict_getitem k d in <[k := l ++ [v]]> d'.

(** [d[k].clear()] *)
Definition defaultdict_clear {V : Type} (k : string) (d : gmap string (list V))
  : gmap string (list V) :=
  let '(_, d') := defaultdict_getitem k d in <[k := []]> d'.

(** [d.get(k, dflt)]: reads only, also on a [defaultdict]. *)
Definition dict_get {V : Type} (k : string) (dflt : V) (d : gmap string V) : V :=
  default dflt (d !! k).

End Py.

(** ** PerformanceMonitor *)

Module PerformanceMonitor.

Import Py.

Record t : Type := mk {
  metrics : gmap string (list Q);
  timestamps : gmap string (list string)
}.

(** [__init__] *)
Definition init : t := mk ∅ ∅.

(** Methods as state transformers over [self]. *)
Definition M (A : Type) : Type := t -> A * t.

#[global] Instance M_ret : MRet M := fun A a self => (a, self).

#[global] Instance M_bind : MBind M :=
  fun A B k m self => let '(a, self') := m self in k a self'.

(** One entry of the dict [get_summary] returns. *)
Record Stats : Type := mkStats {
  count : nat;
  average : Q;
  minimum : Q;
  maximum : Q;
  latest : Q
}.

(** [record_metric]; [now] is [datetime.now().isoformat()]. *)
Definition record_metric (name : string) (value : Q) (now : string) : M unit :=
  fun self =>
    let self := mk (defaultdict_append name value (metrics self)) (timestamps self) in
    let self := mk (metrics self) (defaultdict_append name now (timestamps self)) in
    (tt, self).

(** [get_metric]: [self.metrics.get(name, [])]. *)
Definition get_metric (name : string) : M (list Q) :=
  fun self => (dict_get name [] (metrics self), self).

Definition get_average (name : string) : M (option Q) :=
  values ← get_metric name;
  mret (match values with
       | [] => None
       | _ :: _ => Some (sum values / len values)%Q
       end).

Definition get_min (name : string) : M (option Q) :=
  values ← get_metric name;
  mret (match values with
       | [] => None
       | x :: rest => Some (min x rest)
       end).

Definition get_max (name : string) : M (option Q) :=
  values ← get_metric name;
  mret (match values with
       | [] => None
       | x :: rest => Some (max x rest)
       end).

(** [values[-1] if values else None] *)
Definition get_latest (name : string) : M (option Q) :=
  values ← get_metric name;
  mret (match values with
       | [] => None
       | x :: rest => Some (List.last rest x)
       end).

(** The body of the loop of [get_summary] for one item. *)
Definition stats_of (values : list Q) : option Stats :=
  match values with
  | [] => None
  | x :: rest =>
      Some (mkStats (length values) (sum values / len values)%Q
                    (min x rest) (max x rest) (List.last rest x))
  end.

(** [get_summary]: the loop over [self.metrics.items()]. *)
Definition get_summary : M (gmap string Stats) :=
  fun self => (omap stats_of (metrics self), self).

(** [clear]; the argument is [None] or a name, and [if metric_name:] also
    takes the empty name for "all". *)
Definition clear (metric_name : option string) : M unit :=
  fun self =>
    match metric_name with
    | Some name =>
        if bool_decide (name = "") then (tt, mk ∅ ∅)
        else if bool_decide (is_Some (metrics self !! name)) then
          (tt, mk (defaultdict_clear name (metrics self))
                  (defaultdict_clear name (timestamps self)))
        else (tt, self)
    | None => (tt, mk ∅ ∅)
    end.

(** [record_metric] once per value, oldest first. *)
Fixpoint record_all (name : string) (samples : list (Q * string)) (self : t) : t :=
  match samples with
  | [] => self
  | (value, now) :: samples' =>
      record_all name samples' (record_metric name value now self).2
  end.

End PerformanceMonitor.

(** ** Trend analysis over the persisted metric history *)

Module TrendAnalyzer.

Import Py.

Inductive Trend : Type :=
| Improving | Degrading | Stable.

#[global] Instance Trend_eq_dec : EqDecision Trend.
Proof. solve_decision. Defined.

(** Modelled from the spec: the trend analyzer and the session store it
    reads are not among the sources. One entry of [performance_history] is
    a [{timestamp, metrics}] pair. *)
Record DataPoint : Type := mkPoint {
  timestamp : string;
  metrics : gmap string Q
}.





(** Modelled from the spec: the 0.9 / 1.1 thresholds. *)
Definition label (recent_mean older_mean : Q) : Trend :=
  if Qltb recent_mean ((9 # 10) * older_mean) then Improving
  else if Qltb ((11 # 10) * older_mean) recent_mean then Degrading
  else Stable.


(** A history of ten points for one metric: 120 five times, then 100 five
    times. *)
Definition point (value : Q) : DataPoint :=
  mkPoint "2025-01-01T00:00:00" {[ "page_load_time" := value ]}.


End TrendAnalyzer.

(** ** More of Python's string operations *)

Module Str.

Import Text.

(** [str.upper] on the letters a-z. *)
Definition upper_char (c : ascii) : ascii :=
  let n := Ascii.nat_of_ascii c in
  if (97 <=? n) && (n <=? 122) then Ascii.ascii_of_nat (n - 32) else c.

Fixpoint upper (s : string) : string :=
  match s with
  | EmptyString => EmptyString
  | String c s' => String (upper_char c) (upper s')
  end.

(** [s.capitalize()]: first character upper-cased, the rest lower-cased. *)
Definition capitalize (s : string) : string :=
  match s with
  | EmptyString => EmptyString
  | String c s' => String (upper_char c) (lower s')
  end.

(** [s[:n]] *)
Fixpoint slice_to (n : nat) (s : string) : string :=
  match n, s with
  | S n', String c s' => String c (slice_to n' s')
  | _, _ => EmptyString
  end.

(** [s * n] *)
Fixpoint times (s : string) (n : nat) : string :=
  match n with
  | 0 => EmptyString
  | S n' => s +:+ times s n'
  end.

(** [str(n)] for a count. *)
Definition of_nat (n : nat) : string :=
  DecimalString.NilZero.string_of_uint (Nat.to_uint n).

(** [sep.join(items)] *)
Fixpoint join (sep : string) (items : list string) : string :=
  match items with
  | [] => EmptyString
  | [x] => x
  | x :: items' => x +:+ sep +:+ join sep items'
  end.

Definition newline : string := String (Ascii.ascii_of_nat 10) EmptyString.

End Str.

(** ** The console collector of [BrowserDriver] *)

Module BrowserDriver.

Import Str.

(** What the handlers read of a console message: [msg.type], [msg.text]. *)
Record ConsoleMessage : Type := mkMsg {
  msg_type : string;
  msg_text : string
}.

(** [_handle_console], on [self._console_logs]. *)
Definition _handle_console (msg : ConsoleMessage) (_console_logs : list string)
  : list string :=
  let log_entry := "[" +:+ upper (msg_type msg) +:+ "] " +:+ msg_text msg in
  _console_logs ++ [log_entry].

(** [_handle_page_error]; [error] is [str(error)]. *)
Definition _handle_page_error (error : string) (_console_logs : list string)
  : list string :=
  let log_entry := "[PAGE_ERROR] " +:+ error in
  _console_logs ++ [log_entry].

(** [console_logs]: a copy of the list. *)
Definition console_logs (_console_logs : list string) : list string :=
  _console_logs.

(** [clear_console_logs] *)
Definition clear_console_logs (_console_logs : list string) : list string := [].

(** What the page can send to the two handlers. *)
Inductive PageEvent : Type :=
| Console (msg : ConsoleMessage)
| PageError (error : string).

Definition handle (ev : PageEvent) (_console_logs : list string) : list string :=
  match ev with
  | Console msg => _handle_console msg _console_logs
  | PageError error => _handle_page_error error _console_logs
  end.

(** The list after the events of a session, from the empty list of
    [__init__]. *)
Definition collected (events : list PageEvent) : list string :=
  fold_left (fun logs ev => handle ev logs) events [].

End BrowserDriver.

(** ** The rest of ConsoleDiagnostics *)

Module ConsoleReport.

Import Text Str ConsoleDiagnostics.

(** [filter_by_category]: [self.categories.get(category, [])]. *)
Definition filter_by_category (category : string) (self : ConsoleDiagnostics.t)
  : list string :=
  if bool_decide (category = "errors") then errors self
  else if bool_decide (category = "warnings") then warnings self
  else if bool_decide (category = "info") then info self
  else if bool_decide (category = "debug") then debug self
  else if bool_decide (category = "network") then network self
  else if bool_decide (category = "other") then other self
  else [].

(** The loop [for i, entry in enumerate(entries[:limit], 1)] with the line
    it appends. *)
Definition item_lines (limit : nat) (entries : list string) : list string :=
  imap (fun i entry => "  " +:+ of_nat (S i) +:+ ". " +:+ slice_to 100 entry)
       (take limit entries).

(** [if len(entries) > limit: ... and N more] *)
Definition more_line (limit : nat) (entries : list string) : list string :=
  if limit <? length entries
  then ["  ... and " +:+ of_nat (length entries - limit) +:+ " more"]
  else [].

(** [report_lines] at the end of [generate_report]; [now] is the formatted
    [datetime.now()]. *)
Definition report_lines (now : string) (self : ConsoleDiagnostics.t)
  : list string :=
  let report_lines :=
    [ times "=" 60; "Console Diagnostics Report"; times "=" 60;
      "Total Logs: " +:+ of_nat (length (logs self));
      "Generated: " +:+ now; "";
      "Summary by Category:"; times "-" 60 ] in
  let summary := get_summary self in
  let report_lines :=
    report_lines ++
    ((fun item => "  " +:+ capitalize item.1 +:+ ": " +:+ of_nat item.2)
       <$> summary) in
  let report_lines :=
    if has_errors self then
      report_lines ++ [""; "Errors:"; times "-" 60]
      ++ item_lines 10 (get_errors self) ++ more_line 10 (get_errors self)
    else report_lines in
  let report_lines :=
    if has_warnings self then
      report_lines ++ [""; "Warnings:"; times "-" 60]
      ++ item_lines 5 (get_warnings self) ++ more_line 5 (get_warnings self)
    else report_lines in
  report_lines ++ [times "=" 60].

(** [generate_report] *)
Definition generate_report (now : string) (self : ConsoleDiagnostics.t) : string :=
  join newline (report_lines now self).

(** Programs over the three mutators. *)
Inductive Op : Type :=
| OpAddLog (log : string)
| OpAddLogs (ls : list string)
| OpClear.

Definition step (op : Op) (self : ConsoleDiagnostics.t) : ConsoleDiagnostics.t :=
  match op with
  | OpAddLog log => add_log log self
  | OpAddLogs ls => add_logs ls self
  | OpClear => clear self
  end.

Definition exec (ops : list Op) (self : ConsoleDiagnostics.t) : ConsoleDiagnostics.t :=
  fold_left (fun d op => step op d) ops self.

(** The lines handed over since the last [clear] of a program, after
    [held] that were there before it. *)
Fixpoint since_clear (ops : list Op) (held : list string) : list string :=
  match ops with
  | [] => held
  | OpAddLog log :: ops' => since_clear ops' (held ++ [log])
  | OpAddLogs ls :: ops' => since_clear ops' (held ++ ls)
  | OpClear :: ops' => since_clear ops' []
  end.

(** The number of lines one section of the report takes. *)
Definition section_length (limit : nat) (entries : list string) : nat :=
  match entries with
  | [] => 0
  | _ :: _ => 3 + Nat.min limit (length entries)
              + (if limit <? length entries then 1 else 0)
  end.

End ConsoleReport.

(** ** The final verdicts of the other page tests *)

Module TestLanding.

Import ConsoleDiagnostics TestEmojifusion.

(** [test-landing-local.py], lines 144-152. *)
Definition final_verdict (diagnostics : ConsoleDiagnostics.t)
  (linkCount headingCount : Z) : Verdict :=
  let has_basic_structure := (0 <? linkCount)%Z && (0 <? headingCount)%Z in
  if negb (has_errors diagnostics) && has_basic_structure then TEST_PASSED
  else if has_basic_structure then TEST_PARTIAL
  else TEST_FAILED.

End TestLanding.

Module TestContact.

Import ConsoleDiagnostics TestEmojifusion.

(** [test-contact-local.py], lines 105-114; the three flags are the
    booleans of the page script. *)
Definition final_verdict (diagnostics : ConsoleDiagnostics.t)
  (hasForm hasEmailField hasSubmitButton : bool) : Verdict :=
  let has_valid_form := hasForm && hasEmailField && hasSubmitButton in
  if negb (has_errors diagnostics) && has_valid_form then TEST_PASSED
  else if has_valid_form then TEST_PARTIAL
  else TEST_FAILED.

End TestContact.

(** ** Programs over the monitor *)

Module MonitorOps.

Import Py PerformanceMonitor.

Inductive Op : Type :=
| OpRecord (name : string) (value : Q) (now : string)
| OpClear (metric_name : option string).

Definition step (op : Op) (self : PerformanceMonitor.t) : PerformanceMonitor.t :=
  match op with
  | OpRecord name value now => (record_metric name value now self).2
  | OpClear metric_name => (clear metric_name self).2
  end.

Definition exec (ops : list Op) (self : PerformanceMonitor.t) : PerformanceMonitor.t :=
  fold_left (fun s op => step op s) ops self.

(** The two dictionaries agree on a name: bound in both or in neither,
    with lists of one length. *)
Definition in_step (self : PerformanceMonitor.t) : Prop :=
  forall name : string,
    length <$> metrics self !! name = length <$> timestamps self !! name.

End MonitorOps.

(** ** TestReporter *)

Module TestReporter.

Import Py.

(** One dict of [self.test_results]. *)
Record TestResult : Type := mkResult {
  name : string;
  status : string;
  duration : Q;
  timestamp : string;
  details : list (string * string)
}.

(** [self.session_start] is kept in seconds. *)
Record t : Type := mk {
  test_results : list TestResult;
  session_start : Q
}.

(** [__init__]; [now] is [datetime.now()]. *)
Definition init (now : Q) : t := mk [] now.



(** The dict [get_summary] returns. *)
Record Summary : Type := mkSummary {
  total : nat;
  passed : nat;
  failed : nat;
  skipped : nat;
  total_duration : Q;
  session_duration : Q
}.

(** [sum(1 for r in self.test_results if r["status"] == s)] *)
Definition count_status (s : string) (results : list TestResult) : nat :=
  fold_left (fun n r => if bool_decide (status r = s) then n + 1 else n) results 0.

(** [get_summary]; [now] is [datetime.now()] in seconds. *)
Definition get_summary (now : Q) (self : t) : Summary :=
  mkSummary (length (test_results self))
            (count_status "passed" (test_results self))
            (count_status "failed" (test_results self))
            (count_status "skipped" (test_results self))
            (sum (duration <$> test_results self))
            (now - session_start self)%Q.

(** [clear] *)
Definition clear (now : Q) (self : t) : t := mk [] now.

End TestReporter.

(** ** ClaudeAgent: waiting for a page condition *)

Module ClaudeAgent.

Import Py.

(** The [while] loop of [wait_for_condition]. [polls k] is the truth value
    of the [k]-th [driver.eval(condition)]; [fuel] bounds the number of
    iterations the model follows, [None] meaning the loop was still running
    when it ran out. *)
Fixpoint wait_loop (fuel : nat) (polls : nat -> bool) (k : nat)
  (elapsed timeout interval : Q) : option bool :=
  match fuel with
  | 0 => None
  | S fuel' =>
      if Qltb elapsed timeout then
        if polls k then Some true
        else wait_loop fuel' polls (S k) (elapsed + interval)%Q timeout interval
      else Some false
  end.

(** [wait_for_condition]; [driver] tells whether [self.driver] is set. *)
Definition wait_for_condition (driver : bool) (polls : nat -> bool)
  (timeout interval : Q) (fuel : nat) : option bool :=
  if negb driver then Some false
  else wait_loop fuel polls 0 0%Q timeout interval.

End ClaudeAgent.

(** ** The persisted metric history of the session store *)

Module SessionStore.

Import TrendAnalyzer.

(** Modelled from the spec: the session store is not among the sources.
    [performance_history] is a list of [{timestamp, metrics}] entries,
    oldest first, "capped at 50 entries, FIFO-evicted". *)
Definition retention_window : nat := 50.

(** Modelled from the spec: recording one datapoint appends it and, on
    overflow, evicts from the front until the window holds. *)
Definition record_performance (point : DataPoint)
  (performance_history : list DataPoint) : list DataPoint :=
  let history := performance_history ++ [point] in
  drop (length history - retention_window) history.

(** Modelled from the spec: the datapoints of successive runs, recorded one
    after the other. *)
Definition record_all (points : list DataPoint)
  (performance_history : list DataPoint) : list DataPoint :=
  fold_left (fun history point => record_performance point history)
            points performance_history.

(** Sixty datapoints, the [i]-th measuring [i]. *)
Definition sixty_points : list DataPoint :=
  (fun i => point (inject_Z (Z.of_nat i))) <$> seq 0 60.

End SessionStore.

(** ** The diagnostic aggregator *)

Module DiagnosticAggregator.

Import Text ConsoleDiagnostics.

(** Modelled from the spec: the aggregator ([buildReport], the report with
    its [passed] field, the security-issue list) is not among the sources.
    What follows is section 4.4 of the specification over the entities of
    its section 3; the log classifier it calls is the one of the sources. *)
Record LogEntry : Type := mkEntry {
  kind : Category;
  text : string;
  timestamp : string
}.

(** Modelled from the spec: [{url, method, status, durationMs, sizeBytes,
    failed, errorText}]. *)
Record NetworkEntry : Type := mkRequest {
  url : string;
  method : string;
  status : Z;
  durationMs : Q;
  sizeBytes : Z;
  failed : bool;
  errorText : option string
}.

(** Modelled from the spec: a sub-check hands over its payload or, when it
    raised, the description of the failure. *)
Inductive SubCheck (A : Type) : Type :=
| Done (payload : A)
| Raised (description : string).

Arguments Done {A} payload.
Arguments Raised {A} description.

(** Modelled from the spec: the recommendations of rules (a) to (d). *)
Inductive Recommendation : Type :=
| OptimizeSlowRequests (count : nat)
| FixConsoleErrors (count : nat)
| SecurityRemediation
| AccessibilityImprovements.

(** Modelled from the spec: the report, without its screenshot references,
    which [buildReport] does not produce. *)
Record DiagnosticReport : Type := mkReport {
  target : string;
  report_timestamp : string;
  passed : bool;
  console_logs : list LogEntry;
  network_requests : list NetworkEntry;
  performance : option (gmap string Q);
  errors : list string;
  warnings : list string;
  security_issues : list string;
  recommendations : list Recommendation
}.

(** Modelled from the spec: the text of a tagged line is what follows its
    bracketed tag ("[ERROR] TypeError: x" gives "TypeError: x"); a line
    without a leading tag is its own text. *)
Fixpoint after_tag (s : string) : option string :=
  match s with
  | EmptyString => None
  | String c rest =>
      if Ascii.eqb c "]" then
        Some (match rest with
              | String c' rest' => if Ascii.eqb c' " " then rest' else rest
              | EmptyString => rest
              end)
      else after_tag rest
  end.

Definition text_of (line : string) : string :=
  match line with
  | String c rest => if Ascii.eqb c "[" then default line (after_tag rest) else line
  | EmptyString => line
  end.

(** Modelled from the spec: step 1, the entry of a raw line; its kind comes
    from the classifier. *)
Definition entry_of (raw : string * string) : LogEntry :=
  mkEntry (classify raw.1) (text_of raw.1) raw.2.

Definition texts_of_kind (k : Category) (entries : list LogEntry) : list string :=
  text <$> filter (fun e => kind e = k) entries.

(** Modelled from the spec: rules (a) to (d), in this order, each adding at
    most one recommendation; [accessibility_marker] tells whether a warning
    text carries an accessibility marker. *)
Definition recommend (accessibility_marker : string -> bool)
  (entries : list LogEntry) (networkEntries : list NetworkEntry)
  (warnings securityIssues : list string) : list Recommendation :=
  let slow := List.filter (fun n => Py.Qltb 1000 (durationMs n)) networkEntries in
  let error_logs := filter (fun e => kind e = Errors) entries in
  match slow with
  | [] => []
  | _ :: _ => [OptimizeSlowRequests (length slow)]
  end
  ++ match error_logs with
     | [] => []
     | _ :: _ => [FixConsoleErrors (length error_logs)]
     end
  ++ match securityIssues with
     | [] => []
     | _ :: _ => [SecurityRemediation]
     end
  ++ (if existsb accessibility_marker warnings
      then [AccessibilityImprovements] else []).

(** Modelled from the spec: [buildReport]. A performance sub-check that
    raised adds its description to the errors; the verdict is computed from
    the two counts after that. *)
Definition buildReport (accessibility_marker : string -> bool)
  (target now : string) (logs : list (string * string))
  (networkEntries : list NetworkEntry)
  (performance : SubCheck (option (gmap string Q)))
  (securityIssues : list string) : DiagnosticReport :=
  let entries := entry_of <$> logs in
  let errors := texts_of_kind Errors entries in
  let warnings := texts_of_kind Warnings entries in
  let errors :=
    match performance with
    | Done _ => errors
    | Raised description => errors ++ [description]
    end in
  let snapshot :=
    match performance with
    | Done snapshot => snapshot
    | Raised _ => None
    end in
  let passed := (length errors =? 0) && (length securityIssues =? 0) in
  mkReport target now passed entries networkEntries snapshot
           errors warnings securityIssues
           (recommend accessibility_marker entries networkEntries
                      warnings securityIssues).

End DiagnosticAggregator.

(** * Properties *)

(** ** Strings *)

Section TextFacts.

Import Text.

Lemma app_nil (t : string) : "" +:+ t = t.
Proof. reflexivity. Qed.

Lemma app_cons (c : ascii) (s t : string) :
  String c s +:+ t = String c (s +:+ t).
Proof. reflexivity. Qed.

Lemma prefix_app (p t : string) : String.prefix p (p +:+ t) = true.
Proof.
  induction p as [|c p IH]; rewrite ?app_nil, ?app_cons; simpl.
  - by destruct t.
  - destruct (Ascii.ascii_dec c c); [exact IH | done].
Qed.

Lemma prefix_inv (p s : string) :
  String.prefix p s = true -> exists t, s = p +:+ t.
Proof.
  revert s. induction p as [|c p IH]; intros s H.
  - by exists s.
  - destruct s as [|c' s]; simpl in H; [done|].
    destruct (Ascii.ascii_dec c c') as [->|]; [|done].
    destruct (IH _ H) as [t ->]. by exists t.
Qed.

Lemma contains_nil (needle : string) :
  contains needle "" = String.prefix needle "" || false.
Proof. reflexivity. Qed.

Lemma contains_cons (needle : string) (c : ascii) (hay : string) :
  contains needle (String c hay) =
  String.prefix needle (String c hay) || contains needle hay.
Proof. reflexivity. Qed.

Lemma contains_prefix (needle hay : string) :
  String.prefix needle hay = true -> contains needle hay = true.
Proof.
  intros H. destruct hay; rewrite ?contains_nil, ?contains_cons; by rewrite H.
Qed.

Lemma contains_app (needle a b : string) :
  contains needle (a +:+ needle +:+ b) = true.
Proof.
  induction a as [|c a IH]; rewrite ?app_nil, ?app_cons.
  - apply contains_prefix, prefix_app.
  - rewrite contains_cons, IH. apply orb_true_r.
Qed.

Lemma contains_inv (needle hay : string) :
  contains needle hay = true -> exists a b, hay = a +:+ needle +:+ b.
Proof.
  induction hay as [|c hay IH]; rewrite ?contains_nil, ?contains_cons; intros H.
  - rewrite orb_false_r in H. destruct (prefix_inv _ _ H) as [t ->].
    by exists ""%string, t.
  - apply orb_true_iff in H as [H|H].
    + destruct (prefix_inv _ _ H) as [t Ht]. exists ""%string, t. exact Ht.
    + destruct (IH H) as (a & b & ->). by exists (String c a), b.
Qed.

Lemma lower_app (a b : string) : lower (a +:+ b) = lower a +:+ lower b.
Proof.
  induction a as [|c a IH]; rewrite ?app_nil, ?app_cons; simpl; [done|].
  by rewrite app_cons, IH.
Qed.

Lemma contains_lower (needle hay : string) :
  contains needle hay = true -> contains (lower needle) (lower hay) = true.
Proof.
  intros H. destruct (contains_inv _ _ H) as (a & b & ->).
  rewrite !lower_app. apply contains_app.
Qed.

End TextFacts.

(** ** ConsoleDiagnostics *)

Section ConsoleDiagnosticsFacts.

Import Text ConsoleDiagnostics.

(** The chain of [_categorize_log] is the rule table read top down. *)
Lemma categorize_log_push (log : string) (self : t) :
  _categorize_log log self = push (first_match rule_table (lower log)) log self.
Proof.
  unfold _categorize_log, first_match, rule_table, rule_matches. simpl.
  repeat match goal with
         | |- context [contains ?n ?h] =>
             destruct (contains n h); simpl; try reflexivity
         end.
Qed.

Lemma categories_push (c c' : Category) (log : string) (self : t) :
  categories c' (push c log self) =
  if decide (c' = c) then categories c' self ++ [log] else categories c' self.
Proof. by destruct c, c'. Qed.

Lemma logs_push (c : Category) (log : string) (self : t) :
  logs (push c log self) = logs self.
Proof. by destruct c. Qed.

Lemma observed_kind_push (log : string) (self : t) :
  observed_kind log self = Some (first_match rule_table (lower log)).
Proof.
  unfold observed_kind. rewrite categorize_log_push.
  generalize (first_match rule_table (lower log)) as c. intros c.
  destruct c; simpl; rewrite ?length_app; simpl;
    repeat match goal with
           | |- context [?a =? ?b] =>
               first [ replace (a =? b) with true by (symmetry; apply Nat.eqb_eq; lia)
                     | replace (a =? b) with false by (symmetry; apply Nat.eqb_neq; lia) ]
           end; reflexivity.
Qed.

Lemma classify_first_match (log : string) :
  classify log = first_match rule_table (lower log).
Proof. unfold classify. by rewrite observed_kind_push. Qed.

Lemma add_log_push (log : string) (self : t) :
  add_log log self =
  push (classify log) log
       (mk (logs self ++ [log]) (errors self) (warnings self) (info self)
           (debug self) (network self) (other self)).
Proof. unfold add_log. by rewrite categorize_log_push, classify_first_match. Qed.

Lemma categories_add_log (c : Category) (log : string) (self : t) :
  categories c (add_log log self) =
  if decide (c = classify log) then categories c self ++ [log]
  else categories c self.
Proof.
  rewrite add_log_push, categories_push.
  destruct (decide (c = classify log)); by destruct c.
Qed.

Lemma logs_add_log (log : string) (self : t) :
  logs (add_log log self) = logs self ++ [log].
Proof. rewrite add_log_push, logs_push. done. Qed.

Lemma categories_add_logs (c : Category) (ls : list string) (self : t) :
  categories c (add_logs ls self) =
  categories c self ++ filter (fun l => classify l = c) ls.
Proof.
  revert self. induction ls as [|l ls IH]; intros self; simpl.
  - by rewrite app_nil_r.
  - rewrite IH, categories_add_log, filter_cons.
    destruct (decide (c = classify l)) as [->|Hne].
    + rewrite decide_True by done. by rewrite <- app_assoc.
    + by rewrite decide_False by congruence.
Qed.

Lemma logs_add_logs (ls : list string) (self : t) :
  logs (add_logs ls self) = logs self ++ ls.
Proof.
  revert self. induction ls as [|l ls IH]; intros self; simpl.
  - by rewrite app_nil_r.
  - by rewrite IH, logs_add_log, <- app_assoc.
Qed.

Lemma categories_run (c : Category) (cs : list Call) (self : t) :
  categories c (run cs self) =
  categories c self ++ filter (fun l => classify l = c) (added cs).
Proof.
  revert self. induction cs as [|[l|ls] cs IH]; intros self.
  - simpl. by rewrite app_nil_r.
  - unfold run, added in *. simpl. rewrite IH. simpl.
    change (add_log l self) with (add_logs [l] self).
    rewrite categories_add_logs, <- app_assoc. f_equal.
    change (l :: concat ?x) with ([l] ++ concat x). by rewrite filter_app.
  - unfold run, added in *. simpl. rewrite IH. simpl.
    by rewrite categories_add_logs, <- app_assoc, filter_app.
Qed.

Lemma logs_run (cs : list Call) (self : t) :
  logs (run cs self) = logs self ++ added cs.
Proof.
  revert self. induction cs as [|[l|ls] cs IH]; intros self.
  - simpl. by rewrite app_nil_r.
  - unfold run, added in *. simpl. rewrite IH. simpl.
    by rewrite logs_add_log, <- app_assoc.
  - unfold run, added in *. simpl. rewrite IH. simpl.
    by rewrite logs_add_logs, <- app_assoc.
Qed.

Lemma length_partition (ls : list string) :
  sum_list ((fun c => length (filter (fun l => classify l = c) ls))
              <$> all_categories) = length ls.
Proof.
  induction ls as [|l ls IH]; [done|].
  simpl in *. rewrite !filter_cons.
  destruct (classify l); simpl; lia.
Qed.

(** The classifier on a few lines as the driver writes them. *)
Example classify_examples :
  classify "[ERROR] Failed to fetch" = Errors /\
  classify "[PAGE_ERROR] TypeError: x is undefined" = Errors /\
  classify "[Warning] deprecated API" = Warnings /\
  classify "[LOG] network ready" = Info /\
  classify "[DEBUG] xhr sent" = Debug /\
  classify "XHR finished loading" = Network /\
  classify "error without a tag" = Other.
Proof. repeat split; reflexivity. Qed.

Lemma has_errors_false (self : t) :
  has_errors self = false <-> get_errors self = [].
Proof.
  unfold has_errors, get_errors.
  destruct (categories Errors self); simpl; split; intros; done.
Qed.

(** C2: the chain of [_categorize_log] applies the rules in the order of
    the table (error tags, warning tags, info tags, debug tag, network
    keywords) and the first rule that matches decides, so the bracketed
    tags win over the keywords; a line with the tag [ERROR] that also
    mentions "network" is filed under errors, not under network. *)
Theorem classification_first_match_wins (log : string) :
  (forall self : t,
     _categorize_log log self
     = push (first_match rule_table (lower log)) log self) /\
  classify log = first_match rule_table (lower log) /\
  (contains "[ERROR]" log = true -> contains "network" log = true ->
   classify log = Errors /\ classify log <> Network).
Proof.
  split; [intros; apply categorize_log_push|].
  split; [apply classify_first_match|].
  intros Htag _. apply contains_lower in Htag.
  change (lower "[ERROR]") with "[error]" in Htag.
  assert (classify log = Errors) as ->; [|done].
  rewrite classify_first_match.
  unfold first_match, rule_table, rule_matches. simpl. by rewrite Htag.
Qed.

Lemma classification_first_match_wins_witness :
  classify "[ERROR] network request failed" = Errors /\
  classify "[ERROR] network request failed" <> Network.
Proof.
  apply (classification_first_match_wins "[ERROR] network request failed");
    reflexivity.
Defined.

(** C6: the kind [_categorize_log] assigns depends on the text alone: it is
    the same in every state of the object, hence after any calls made
    before, and adding the same line again and again files every copy
    under that one kind. *)
Theorem classification_stateless (x : string) :
  (forall d1 d2 : t, observed_kind x d1 = observed_kind x d2) /\
  (forall cs : list Call, observed_kind x (run cs init) = Some (classify x)) /\
  (forall (n : nat) (d : t) (c : Category),
     categories c (Nat.iter n (add_log x) d)
     = if decide (c = classify x) then categories c d ++ replicate n x
       else categories c d).
Proof.
  split; [|split].
  - intros d1 d2. by rewrite !observed_kind_push.
  - intros cs. by rewrite observed_kind_push, classify_first_match.
  - intros n d c. induction n as [|n IH]; simpl.
    + destruct (decide _); by rewrite ?app_nil_r.
    + rewrite categories_add_log, IH.
      destruct (decide (c = classify x)); [|done].
      rewrite <- app_assoc. f_equal.
      change (x :: replicate n x) with (replicate (S n) x).
      by rewrite replicate_S_end.
Qed.

(** C7: [_categorize_log] files every line under exactly one kind, whatever
    the text, and a line in which none of the tags and keywords occurs is
    filed under other. *)
Theorem classification_total (log : string) (self : t) :
  (exists c : Category,
     observed_kind log self = Some c /\
     _categorize_log log self = push c log self) /\
  (Forall (fun needle => contains needle (lower log) = false)
     ["[error]"; "[page_error]"; "[warning]"; "[warn]"; "[info]"; "[log]";
      "[debug]"; "network"; "fetch"; "xhr"] ->
   observed_kind log self = Some Other /\ classify log = Other).
Proof.
  split.
  - exists (first_match rule_table (lower log)).
    by rewrite observed_kind_push, categorize_log_push.
  - intros H. rewrite observed_kind_push, classify_first_match.
    repeat match goal with
           | H : Forall _ (_ :: _) |- _ =>
               apply Forall_cons in H as [? H]
           end.
    unfold first_match, rule_table, rule_matches. simpl.
    repeat match goal with Hc : contains _ _ = false |- _ => rewrite Hc; clear Hc end.
    done.
Qed.

Lemma classification_total_witness :
  observed_kind "hello world" init = Some Other /\
  classify "hello world" = Other.
Proof.
  apply (classification_total "hello world" init).
  repeat constructor.
Defined.

(** C9: after any sequence of [add_log] / [add_logs] calls on a new object,
    [self.logs] holds the added lines in order, each category list holds,
    in insertion order, exactly the added lines of its kind (so a line is
    in one list only), and the counts of [get_summary] add up to the number
    of lines added. *)
Theorem categories_partition_added (cs : list Call) :
  logs (run cs init) = added cs /\
  (forall c : Category,
     categories c (run cs init) = filter (fun l => classify l = c) (added cs)) /\
  (forall (l : string) (c : Category),
     l ∈ categories c (run cs init) <-> l ∈ added cs /\ c = classify l) /\
  sum_list (snd <$> get_summary (run cs init)) = length (added cs).
Proof.
  assert (forall c, categories c (run cs init)
                    = filter (fun l => classify l = c) (added cs)) as Hcat.
  { intros c. rewrite categories_run. by destruct c. }
  split; [by rewrite logs_run|].
  split; [exact Hcat|].
  split.
  - intros l c. rewrite Hcat, list_elem_of_filter.
    split; intros [? ?]; split; done.
  - unfold get_summary. rewrite <- list_fmap_compose.
    rewrite <- (length_partition (added cs)).
    f_equal. apply list_fmap_ext. intros ? c ?. simpl. by rewrite Hcat.
Qed.

End ConsoleDiagnosticsFacts.

(** ** The final verdict *)

Section VerdictFacts.

Import Text ConsoleDiagnostics TestEmojifusion.

Lemma final_verdict_passed (d : ConsoleDiagnostics.t) (combos_count : Z) :
  final_verdict d combos_count = TEST_PASSED <->
  get_errors d = [] /\ (0 < combos_count)%Z.
Proof.
  rewrite <- has_errors_false. unfold final_verdict.
  destruct (has_errors d), (Z.ltb_spec 0 combos_count); simpl;
    split; try done; try (intros [? ?]; done); try lia.
Qed.

Lemma has_errors_add_log (log : string) (d : ConsoleDiagnostics.t) :
  classify log <> Errors -> has_errors (add_log log d) = has_errors d.
Proof.
  intros H. unfold has_errors. rewrite categories_add_log.
  by rewrite decide_False by congruence.
Qed.

(** X17: the emojifusion test ends on "TEST PASSED" exactly when the
    errors list of its diagnostics is empty and the page check succeeded
    ([combos_count > 0]); adding a line the classifier files under any kind
    other than errors never changes its verdict. *)
Theorem verdict_passed_iff
  (console_logs : list string) (combos_count : Z)
  (d : ConsoleDiagnostics.t) (log : string) :
  (test_emojifusion console_logs combos_count = TEST_PASSED <->
   get_errors (add_logs console_logs init) = [] /\ (0 < combos_count)%Z) /\
  (classify log <> Errors ->
   final_verdict (add_log log d) combos_count = final_verdict d combos_count).
Proof.
  split.
  - apply final_verdict_passed.
  - intros H. unfold final_verdict. by rewrite has_errors_add_log.
Qed.

Lemma verdict_passed_iff_witness :
  (test_emojifusion ["[LOG] ready"; "[WARNING] deprecated API"] 3 = TEST_PASSED <->
   get_errors (add_logs ["[LOG] ready"; "[WARNING] deprecated API"] init) = []
   /\ (0 < 3)%Z) /\
  final_verdict (add_log "[WARNING] fetch is slow" init) 3 = final_verdict init 3.
Proof.
  destruct (verdict_passed_iff ["[LOG] ready"; "[WARNING] deprecated API"] 3
              init "[WARNING] fetch is slow") as [H1 H2].
  split; [exact H1|]. apply H2. vm_compute. discriminate.
Defined.

End VerdictFacts.

(** ** Python builtins *)

Section PyFacts.

Import Py.

Lemma Qltb_lt (x y : Q) : Qltb x y = true <-> (x < y)%Q.
Proof.
  unfold Qltb. rewrite negb_true_iff, <- not_true_iff_false, Qle_bool_iff.
  split; [apply Qnot_le_lt | apply Qlt_not_le].
Qed.




Lemma lookup_defaultdict_append {V : Type} (k k' : string) (v : V)
  (d : gmap string (list V)) :
  defaultdict_append k v d !! k' =
  if decide (k = k') then Some (default [] (d !! k) ++ [v]) else d !! k'.
Proof.
  unfold defaultdict_append, defaultdict_getitem.
  destruct (d !! k) as [l|] eqn:E; simpl;
    destruct (decide (k = k')) as [->|Hne];
    rewrite ?lookup_insert_eq, ?lookup_insert_ne by done; done.
Qed.

End PyFacts.

(** ** PerformanceMonitor *)

Section PerformanceMonitorFacts.

Import Py PerformanceMonitor.

Lemma get_metric_record_metric (name name' : string) (value : Q) (now : string)
  (self : t) :
  (get_metric name' (record_metric name value now self).2).1 =
  if decide (name = name') then (get_metric name self).1 ++ [value]
  else (get_metric name' self).1.
Proof.
  unfold get_metric, record_metric, dict_get. simpl.
  rewrite lookup_defaultdict_append. by destruct (decide (name = name')) as [->|].
Qed.

Lemma get_metric_record_all (name : string) (samples : list (Q * string))
  (self : t) :
  (get_metric name (record_all name samples self)).1 =
  (get_metric name self).1 ++ samples.*1.
Proof.
  revert self. induction samples as [|[value now] samples IH]; intros self.
  - simpl. by rewrite app_nil_r.
  - change (record_all name ((value, now) :: samples) self)
      with (record_all name samples (record_metric name value now self).2).
    rewrite IH, get_metric_record_metric.
    rewrite decide_True by done. by rewrite <- app_assoc.
Qed.

Lemma get_summary_lookup (name : string) (self : t) :
  (get_summary self).1 !! name = stats_of (get_metric name self).1.
Proof.
  unfold get_summary, get_metric, dict_get. simpl. rewrite lookup_omap.
  by destruct (metrics self !! name).
Qed.

(** X18: [record_metric] only appends: after any number of recordings
    for a name the list of that metric is the earlier list followed by all
    recorded values in insertion order, none evicted. *)
Theorem record_metric_keeps_everything
  (name : string) (samples : list (Q * string)) (self : t) :
  (get_metric name (record_all name samples self)).1
  = (get_metric name self).1 ++ samples.*1 /\
  length (get_metric name (record_all name samples self)).1
  = length (get_metric name self).1 + length samples.
Proof.
  rewrite get_metric_record_all. split; [done|].
  by rewrite length_app, length_fmap.
Qed.

(** C5: for a metric with no sample, whether its name was never recorded or
    its list was emptied, [get_average], [get_min], [get_max] and
    [get_latest] each return [None], not a number. *)
Theorem no_samples_no_number (name : string) (self : t) :
  (get_metric name self).1 = [] ->
  (get_average name self).1 = None /\
  (get_min name self).1 = None /\
  (get_max name self).1 = None /\
  (get_latest name self).1 = None.
Proof.
  unfold get_average, get_min, get_max, get_latest, mbind, M_bind, mret, M_ret.
  destruct (get_metric name self) as [values self'] eqn:E. simpl.
  by intros ->.
Qed.

Lemma no_samples_no_number_witness :
  (get_average "first_paint" (clear (Some "first_paint")
     (record_metric "first_paint" (3 # 2) "t0" init).2).2).1 = None /\
  (get_min "first_paint" (clear (Some "first_paint")
     (record_metric "first_paint" (3 # 2) "t0" init).2).2).1 = None /\
  (get_max "first_paint" (clear (Some "first_paint")
     (record_metric "first_paint" (3 # 2) "t0" init).2).2).1 = None /\
  (get_latest "first_paint" (clear (Some "first_paint")
     (record_metric "first_paint" (3 # 2) "t0" init).2).2).1 = None.
Proof.
  apply (no_samples_no_number "first_paint"). vm_compute. reflexivity.
Defined.

(** C10: the query methods return the monitor as they found it; asking for
    a name that was never recorded does not bind it; [record_metric] for
    one name leaves the samples and the timestamps of every other name
    alone. *)
Theorem queries_do_not_write
  (name other : string) (value : Q) (now : string) (self : t) :
  ((get_metric name self).2 = self /\
   (get_average name self).2 = self /\
   (get_min name self).2 = self /\
   (get_max name self).2 = self /\
   (get_latest name self).2 = self /\
   (get_summary self).2 = self) /\
  (metrics self !! name = None ->
   metrics (get_metric name self).2 !! name = None /\
   metrics (get_average name self).2 !! name = None /\
   metrics (get_min name self).2 !! name = None /\
   metrics (get_max name self).2 !! name = None /\
   metrics (get_latest name self).2 !! name = None) /\
  (other <> name ->
   metrics (record_metric name value now self).2 !! other = metrics self !! other /\
   timestamps (record_metric name value now self).2 !! other
   = timestamps self !! other /\
   (get_metric other (record_metric name value now self).2).1
   = (get_metric other self).1).
Proof.
  assert ((get_metric name self).2 = self /\
          (get_average name self).2 = self /\
          (get_min name self).2 = self /\
          (get_max name self).2 = self /\
          (get_latest name self).2 = self /\
          (get_summary self).2 = self) as Hq.
  { unfold get_average, get_min, get_max, get_latest, get_summary, get_metric,
      mbind, M_bind, mret, M_ret. simpl. done. }
  split; [exact Hq|]. split.
  - intros Hnone. destruct Hq as (-> & -> & -> & -> & -> & _). done.
  - intros Hne. split; [|split].
    + unfold record_metric. simpl.
      by rewrite lookup_defaultdict_append, decide_False.
    + unfold record_metric. simpl.
      by rewrite lookup_defaultdict_append, decide_False.
    + by rewrite get_metric_record_metric, decide_False.
Qed.

Lemma queries_do_not_write_witness :
  metrics (get_metric "page_load_time"
             (record_metric "dom_ready" (2 # 1) "t0" init).2).2
    !! "page_load_time" = None /\
  (get_metric "dom_ready"
     (record_metric "page_load_time" (5 # 1) "t1"
        (record_metric "dom_ready" (2 # 1) "t0" init).2).2).1
  = (get_metric "dom_ready" (record_metric "dom_ready" (2 # 1) "t0" init).2).1.
Proof.
  destruct (queries_do_not_write "page_load_time" "dom_ready" (5 # 1) "t1"
              (record_metric "dom_ready" (2 # 1) "t0" init).2)
    as (_ & Hfresh & Hframe).
  split.
  - apply Hfresh. vm_compute. reflexivity.
  - apply Hframe. discriminate.
Defined.

End PerformanceMonitorFacts.

(** ** Trend analysis *)

Section TrendAnalyzerFacts.

Import Py TrendAnalyzer.













(** The examples of the specification: 100 against 120, 130 against 100,
    105 against 100. *)
Example label_examples :
  label (100 # 1) (120 # 1) = Improving /\
  label (130 # 1) (100 # 1) = Degrading /\
  label (105 # 1) (100 # 1) = Stable.
Proof. repeat split; reflexivity. Qed.

End TrendAnalyzerFacts.

(** ** The session store's metric history *)

Section SessionStoreFacts.

Import TrendAnalyzer SessionStore.

Lemma length_record_performance (point : DataPoint) (history : list DataPoint) :
  length history <= 50 -> length (record_performance point history) <= 50.
Proof.
  intros H. unfold record_performance, retention_window.
  rewrite length_drop, length_app. simpl. lia.
Qed.

Lemma record_all_window (points history : list DataPoint) :
  length history <= 50 ->
  record_all points history
  = drop (length (history ++ points) - 50) (history ++ points).
Proof.
  revert history. induction points as [|p points IH]; intros history H.
  - unfold record_all. simpl. rewrite app_nil_r.
    replace (length history - 50) with 0 by lia. done.
  - change (record_all (p :: points) history)
      with (record_all points (record_performance p history)).
    rewrite IH by (by apply length_record_performance).
    unfold record_performance, retention_window.
    replace (history ++ p :: points) with ((history ++ [p]) ++ points)
      by (by rewrite <- app_assoc).
    assert (length (history ++ [p]) = S (length history)) as HL
        by (rewrite length_app; simpl; lia).
    set (L := history ++ [p]) in *. clearbody L.
    rewrite <- (drop_app_le L points) by lia.
    rewrite drop_drop. f_equal.
    rewrite length_drop, !length_app. lia.
Qed.

(** C3: however many datapoints are recorded, the stored metric history
    never holds more than 50 entries: it is the last 50 of everything
    stored and recorded, in insertion order. Recording 60 datapoints into
    an empty store leaves exactly the most recent 50, the oldest 10 having
    been evicted. *)
Theorem history_never_exceeds_window (points history : list DataPoint) :
  (length history <= 50 ->
   length (record_all points history) <= 50 /\
   record_all points history
   = drop (length (history ++ points) - 50) (history ++ points)) /\
  length (record_all points []) <= 50 /\
  record_all points [] = drop (length points - 50) points /\
  (length points = 60 ->
   length (record_all points []) = 50 /\
   record_all points [] = drop 10 points /\
   points = take 10 points ++ record_all points []).
Proof.
  assert (record_all points [] = drop (length points - 50) points) as Hnew.
  { rewrite record_all_window by (simpl; lia). done. }
  split; [|split; [|split]].
  - intros H. rewrite record_all_window by done. split; [|done].
    rewrite length_drop. lia.
  - rewrite Hnew, length_drop. lia.
  - exact Hnew.
  - intros H60. rewrite Hnew, H60. simpl.
    split; [rewrite length_drop; lia|]. split; [done|].
    by rewrite take_drop.
Qed.

Lemma history_never_exceeds_window_witness :
  length (record_all sixty_points []) = 50 /\
  record_all sixty_points [] = drop 10 sixty_points /\
  sixty_points = take 10 sixty_points ++ record_all sixty_points [].
Proof.
  assert (length sixty_points = 60) as H60 by reflexivity.
  exact (proj2 (proj2 (proj2
           (history_never_exceeds_window sixty_points []))) H60).
Defined.

End SessionStoreFacts.

(** ** The diagnostic aggregator *)

Section DiagnosticAggregatorFacts.

Import Text ConsoleDiagnostics DiagnosticAggregator.

Lemma length_zero_nil {A : Type} (l : list A) : (length l =? 0) = true <-> l = [].
Proof. destruct l; simpl; split; intros; done. Qed.

Lemma texts_of_kind_insert (k : Category) (before after : list (string * string))
  (w : string * string) :
  classify w.1 <> k ->
  texts_of_kind k (entry_of <$> (before ++ w :: after))
  = texts_of_kind k (entry_of <$> (before ++ after)).
Proof.
  intros H. unfold texts_of_kind.
  rewrite !fmap_app, fmap_cons, !filter_app, filter_cons.
  by rewrite decide_False.
Qed.

(** C1: the verdict of a report is [true] exactly when its derived error
    list and its security-issue list are both empty when it is computed,
    that is after a failed sub-check has been added to the errors; the
    security issues are the supplied ones; the network entries, failed or
    not, do not enter the verdict, nor does a log line of a kind other
    than error, such as a warning. *)
Theorem verdict_iff_no_error_no_security
  (accessibility_marker : string -> bool) (target now : string)
  (logs before after : list (string * string)) (w : string * string)
  (networkEntries networkEntries' : list NetworkEntry)
  (performance : SubCheck (option (gmap string Q)))
  (securityIssues : list string) :
  (passed (buildReport accessibility_marker target now logs networkEntries
             performance securityIssues) = true <->
   errors (buildReport accessibility_marker target now logs networkEntries
             performance securityIssues) = [] /\
   security_issues (buildReport accessibility_marker target now logs
                      networkEntries performance securityIssues) = []) /\
  security_issues (buildReport accessibility_marker target now logs
                     networkEntries performance securityIssues)
  = securityIssues /\
  passed (buildReport accessibility_marker target now logs networkEntries'
            performance securityIssues)
  = passed (buildReport accessibility_marker target now logs networkEntries
              performance securityIssues) /\
  (classify w.1 <> Errors ->
   passed (buildReport accessibility_marker target now (before ++ w :: after)
             networkEntries performance securityIssues)
   = passed (buildReport accessibility_marker target now (before ++ after)
               networkEntries performance securityIssues)).
Proof.
  split; [|split; [|split]].
  - unfold buildReport. simpl.
    rewrite andb_true_iff, !length_zero_nil. done.
  - done.
  - done.
  - intros H. unfold buildReport. simpl.
    by rewrite (texts_of_kind_insert Errors before after w H).
Qed.

Lemma verdict_iff_no_error_no_security_witness :
  passed (buildReport (fun _ => false) "/" "t"
            ([("[LOG] ready", "t0")] ++ ("[WARNING] deprecated API", "t1")
               :: [("[LOG] done", "t2")])
            [] (Done None) [])
  = passed (buildReport (fun _ => false) "/" "t"
              ([("[LOG] ready", "t0")] ++ [("[LOG] done", "t2")])
              [] (Done None) []).
Proof.
  assert (classify ("[WARNING] deprecated API", "t1").1 <> Errors) as Hw
      by (vm_compute; discriminate).
  exact (proj2 (proj2 (proj2
           (verdict_iff_no_error_no_security (fun _ => false) "/" "t" []
              [("[LOG] ready", "t0")] [("[LOG] done", "t2")]
              ("[WARNING] deprecated API", "t1") [] [] (Done None) []))) Hw).
Defined.

(** The scenarios of the specification: the verdict for no error and no
    security issue, one error, one security issue, and the end-to-end
    report with a slow request. *)
Example verdict_examples :
  passed (buildReport (fun _ => false) "/" "t" [("[LOG] ready", "t0")]
            [] (Done None) []) = true /\
  passed (buildReport (fun _ => false) "/" "t" [("[ERROR] boom", "t0")]
            [] (Done None) []) = false /\
  passed (buildReport (fun _ => false) "/" "t" []
            [] (Done None) ["CORS error"]) = false /\
  passed (buildReport (fun _ => false) "/" "t" []
            [mkRequest "/api/x" "GET" 0 0 0 true (Some "timeout")]
            (Done None) []) = true.
Proof. repeat split; reflexivity. Qed.

Example end_to_end_scenario :
  let r := buildReport (fun _ => false) "/" "t"
             [("[ERROR] TypeError: x is undefined", "t0");
              ("[WARNING] deprecated API", "t1")]
             [mkRequest "/api/x" "GET" 200 (1500 # 1) 0 false None]
             (Done None) [] in
  errors r = ["TypeError: x is undefined"] /\
  warnings r = ["deprecated API"] /\
  passed r = false /\
  recommendations r = [OptimizeSlowRequests 1; FixConsoleErrors 1].
Proof. repeat split; reflexivity. Qed.

End DiagnosticAggregatorFacts.

(** * Further properties of the code *)

(** ** ConsoleDiagnostics: programs with [clear], and the report *)

Section ConsoleReportFacts.

Import Text Str ConsoleDiagnostics ConsoleReport.

Lemma filter_kind_add_log (c : Category) (log : string) (self : ConsoleDiagnostics.t) :
  categories c self = filter (fun l => classify l = c) (logs self) ->
  categories c (add_log log self)
  = filter (fun l => classify l = c) (logs (add_log log self)).
Proof.
  intros H. rewrite categories_add_log, logs_add_log, filter_app, H.
  rewrite filter_cons, filter_nil.
  destruct (decide (c = classify log)) as [->|Hne].
  - by rewrite decide_True.
  - rewrite decide_False by congruence. by rewrite app_nil_r.
Qed.

Lemma filter_kind_add_logs (c : Category) (ls : list string) (self : ConsoleDiagnostics.t) :
  categories c self = filter (fun l => classify l = c) (logs self) ->
  categories c (add_logs ls self)
  = filter (fun l => classify l = c) (logs (add_logs ls self)).
Proof.
  intros H. by rewrite categories_add_logs, logs_add_logs, filter_app, H.
Qed.

Lemma logs_exec (ops : list Op) (self : ConsoleDiagnostics.t) :
  logs (exec ops self) = since_clear ops (logs self).
Proof.
  revert self. induction ops as [|[log|ls|] ops IH]; intros self; [done|..];
    unfold exec in *; simpl; rewrite IH; simpl.
  - by rewrite logs_add_log.
  - by rewrite logs_add_logs.
  - done.
Qed.

(** X1: over any program of [add_log], [add_logs] and [clear] on a new
    object, [self.logs] is what was added since the last [clear], each
    category list is the part of [self.logs] of its kind, in order, and the
    counts of [get_summary] add up to [len(self.logs)]. *)
Theorem exec_keeps_categories_in_step (ops : list Op) :
  logs (exec ops init) = since_clear ops [] /\
  (forall c : Category,
     categories c (exec ops init)
     = filter (fun l => classify l = c) (since_clear ops [])) /\
  sum_list (snd <$> get_summary (exec ops init)) = length (logs (exec ops init)).
Proof.
  assert (forall self,
            (forall c, categories c self
                       = filter (fun l => classify l = c) (logs self)) ->
            forall c, categories c (exec ops self)
                      = filter (fun l => classify l = c) (logs (exec ops self)))
    as Hinv.
  { induction ops as [|[log|ls|] ops IH]; intros self H; [done|..];
      unfold exec in *; simpl; apply IH; intros c.
    - by apply filter_kind_add_log.
    - by apply filter_kind_add_logs.
    - by destruct c. }
  specialize (Hinv init (fun c => ltac:(by destruct c))).
  split; [apply logs_exec|]. split.
  - intros c. by rewrite Hinv, logs_exec.
  - unfold get_summary. rewrite <- list_fmap_compose.
    rewrite <- (length_partition (logs (exec ops init))).
    f_equal. apply list_fmap_ext. intros ? c ?. simpl. by rewrite Hinv.
Qed.

(** X2: after [add_logs], [has_errors] holds iff it held before or one of
    the added lines is of kind errors; the same for [has_warnings]. Adding
    lines never turns either of them off. *)
Theorem has_errors_after_add_logs (ls : list string) (self : ConsoleDiagnostics.t) :
  has_errors (add_logs ls self)
  = has_errors self || existsb (fun l => bool_decide (classify l = Errors)) ls /\
  has_warnings (add_logs ls self)
  = has_warnings self || existsb (fun l => bool_decide (classify l = Warnings)) ls.
Proof.
  assert (forall c (l0 : list string),
            (0 <? length (l0 ++ filter (fun l => classify l = c) ls))
            = (0 <? length l0) || existsb (fun l => bool_decide (classify l = c)) ls)
    as H.
  { intros c l0. rewrite length_app.
    induction ls as [|l ls IH]; simpl.
    - rewrite orb_false_r. f_equal. lia.
    - rewrite filter_cons. destruct (decide (classify l = c)) as [Heq|Hne].
      + rewrite (bool_decide_eq_true_2 _ Heq). simpl.
        rewrite orb_true_r. apply Nat.ltb_lt. lia.
      + rewrite (bool_decide_eq_false_2 _ Hne). simpl. exact IH. }
  unfold has_errors, has_warnings. rewrite !categories_add_logs. split; apply H.
Qed.

Lemma length_item_lines (limit : nat) (entries : list string) :
  length (item_lines limit entries) = Nat.min limit (length entries).
Proof. unfold item_lines. by rewrite length_imap, length_take. Qed.

Lemma length_section (limit : nat) (entries : list string) (head : list string) :
  length head = 3 ->
  length (if 0 <? length entries
          then head ++ item_lines limit entries ++ more_line limit entries
          else []) = section_length limit entries.
Proof.
  intros Hh. destruct entries as [|e entries]; [done|].
  change (0 <? length (e :: entries)) with true. cbv iota.
  rewrite !length_app, Hh, length_item_lines.
  unfold section_length, more_line.
  destruct (limit <? length (e :: entries)); simpl; lia.
Qed.

Lemma section_length_bound (limit : nat) (entries : list string) :
  section_length limit entries <= limit + 4.
Proof.
  unfold section_length. destruct entries; [lia|].
  destruct (limit <? _); lia.
Qed.

(** X3: the report of [generate_report] has 15 fixed lines, plus, for a
    non-empty errors list, 3 heading lines, at most 10 items and one
    "and N more" line when there are more than 10, plus the same for
    warnings with the limit 5: never more than 38 lines. *)
Theorem report_lines_bounded (now : string) (self : ConsoleDiagnostics.t) :
  length (report_lines now self)
  = 15 + section_length 10 (get_errors self)
       + section_length 5 (get_warnings self) /\
  length (report_lines now self) <= 38.
Proof.
  assert (length (report_lines now self)
          = 15 + section_length 10 (get_errors self)
               + section_length 5 (get_warnings self)) as Hlen.
  { rewrite <- (length_section 10 (get_errors self) [""; "Errors:"; times "-" 60])
      by done.
    rewrite <- (length_section 5 (get_warnings self) [""; "Warnings:"; times "-" 60])
      by done.
    unfold report_lines, has_errors, has_warnings, get_errors, get_warnings.
    destruct (0 <? length (categories Errors self));
      destruct (0 <? length (categories Warnings self));
      rewrite ?length_app, ?length_fmap; simpl; lia. }
  split; [exact Hlen|]. rewrite Hlen.
  pose proof (section_length_bound 10 (get_errors self)).
  pose proof (section_length_bound 5 (get_warnings self)). lia.
Qed.

End ConsoleReportFacts.

(** ** The driver's log lines under the classifier *)

Section DriverFacts.

Import Text Str ConsoleDiagnostics BrowserDriver TestEmojifusion.

Lemma lower_upper_char (c : ascii) : lower_char (upper_char c) = lower_char c.
Proof. destruct c as [[] [] [] [] [] [] [] []]; reflexivity. Qed.

Lemma lower_upper (s : string) : lower (upper s) = lower s.
Proof.
  induction s as [|c s IH]; simpl; [done|]. by rewrite lower_upper_char, IH.
Qed.

Lemma classify_error_tag (log : string) :
  contains "[error]" (lower log) = true -> classify log = Errors.
Proof.
  intros H. rewrite classify_first_match.
  unfold first_match, rule_table, rule_matches. simpl. by rewrite H.
Qed.

Lemma classify_page_error_tag (log : string) :
  contains "[page_error]" (lower log) = true -> classify log = Errors.
Proof.
  intros H. rewrite classify_first_match.
  unfold first_match, rule_table, rule_matches. simpl.
  rewrite H. by destruct (contains "[error]" (lower log)).
Qed.

Lemma console_entry_lower (msg : ConsoleMessage) :
  lower ("[" +:+ upper (msg_type msg) +:+ "] " +:+ msg_text msg)
  = "[" +:+ lower (msg_type msg) +:+ "] " +:+ lower (msg_text msg).
Proof. by rewrite !lower_app, lower_upper. Qed.

(** X4: the line [_handle_console] appends for a message of type error
    (in any letter case), and the line [_handle_page_error] appends for any
    error, are filed under errors by the classifier, whatever their text. *)
Theorem error_entries_are_errors (msg : ConsoleMessage) (error : string)
  (held : list string) :
  (lower (msg_type msg) = "error" ->
   exists entry, _handle_console msg held = held ++ [entry] /\
                 classify entry = Errors) /\
  (exists entry, _handle_page_error error held = held ++ [entry] /\
                 classify entry = Errors).
Proof.
  split.
  - intros Hty. eexists. split; [reflexivity|].
    apply classify_error_tag. rewrite console_entry_lower, Hty.
    apply contains_prefix. reflexivity.
  - eexists. split; [reflexivity|].
    apply classify_page_error_tag. rewrite lower_app.
    apply contains_prefix. reflexivity.
Qed.

Lemma error_entries_are_errors_witness :
  exists entry,
    _handle_console (mkMsg "Error" "Failed to load resource") [] = [] ++ [entry] /\
    classify entry = Errors.
Proof.
  apply (error_entries_are_errors (mkMsg "Error" "Failed to load resource") "" []).
  reflexivity.
Defined.

Ltac skip_literal_prefix :=
  rewrite ?app_cons, ?app_nil; rewrite ?contains_cons; simpl.

(** X5: the line of a console message of type warning is filed under
    warnings unless its text itself carries an error tag, then under
    errors; the line of a message of type log is filed under info unless
    its text carries an error tag (errors) or a warning tag (warnings). *)
Theorem tagged_entries_follow_text (text : string) (held : list string) :
  let error_tag :=
    contains "[error]" (lower text) || contains "[page_error]" (lower text) in
  let warning_tag :=
    contains "[warning]" (lower text) || contains "[warn]" (lower text) in
  (exists entry,
     _handle_console (mkMsg "warning" text) held = held ++ [entry] /\
     classify entry = if error_tag then Errors else Warnings) /\
  (exists entry,
     _handle_console (mkMsg "log" text) held = held ++ [entry] /\
     classify entry = if error_tag then Errors
                      else if warning_tag then Warnings else Info).
Proof.
  cbv zeta. split.
  - eexists. split; [reflexivity|].
    rewrite classify_first_match, console_entry_lower.
    unfold first_match, rule_table, rule_matches. simpl.
    skip_literal_prefix. rewrite !orb_false_r.
    by destruct (contains "[error]" (lower text)),
         (contains "[page_error]" (lower text)).
  - eexists. split; [reflexivity|].
    rewrite classify_first_match, console_entry_lower.
    unfold first_match, rule_table, rule_matches. simpl.
    skip_literal_prefix. rewrite !orb_false_r.
    by destruct (contains "[error]" (lower text)),
         (contains "[page_error]" (lower text)),
         (contains "[warning]" (lower text)),
         (contains "[warn]" (lower text)),
         (contains "[info]" (lower text)).
Qed.

Lemma collected_from (events : list PageEvent) (held : list string) :
  fold_left (fun logs ev => handle ev logs) events held
  = held ++ ((fun ev => match ev with
                        | Console msg =>
                            "[" +:+ upper (msg_type msg) +:+ "] " +:+ msg_text msg
                        | PageError error => "[PAGE_ERROR] " +:+ error
                        end) <$> events).
Proof.
  revert held. induction events as [|ev events IH]; intros held; simpl.
  - by rewrite app_nil_r.
  - rewrite IH. destruct ev; simpl;
      unfold _handle_console, _handle_page_error; by rewrite <- app_assoc.
Qed.

Lemma has_errors_of_error_line (ls : list string) (l : string) :
  l ∈ ls -> classify l = Errors -> has_errors (add_logs ls init) = true.
Proof.
  intros Hin Hc. unfold has_errors. rewrite categories_add_logs. simpl.
  assert (l ∈ filter (fun l => classify l = Errors) ls) as Hf
      by (apply list_elem_of_filter; done).
  destruct (filter _ ls); [by apply elem_of_nil in Hf | done].
Qed.

(** X6: when the page raised an error or logged a message of type error,
    the diagnostics built from the driver's console logs have errors, and
    none of the three page tests ends on TEST PASSED, whatever the page
    checks found. *)
Theorem page_error_blocks_pass (events : list PageEvent) (error : string)
  (msg : ConsoleMessage) (combos_count linkCount headingCount : Z)
  (hasForm hasEmailField hasSubmitButton : bool) :
  PageError error ∈ events \/
  (Console msg ∈ events /\ lower (msg_type msg) = "error") ->
  let diagnostics := add_logs (console_logs (collected events)) init in
  has_errors diagnostics = true /\
  TestEmojifusion.final_verdict diagnostics combos_count <> TEST_PASSED /\
  TestLanding.final_verdict diagnostics linkCount headingCount <> TEST_PASSED /\
  TestContact.final_verdict diagnostics hasForm hasEmailField hasSubmitButton
  <> TEST_PASSED.
Proof.
  intros Hev diagnostics.
  assert (has_errors diagnostics = true) as Herr.
  { unfold diagnostics, console_logs, collected. rewrite collected_from. simpl.
    destruct Hev as [Hev|[Hev Hty]].
    - eapply has_errors_of_error_line.
      + apply list_elem_of_fmap. eexists. split; [|exact Hev]. reflexivity.
      + apply classify_page_error_tag. rewrite lower_app.
        apply contains_prefix. reflexivity.
    - eapply has_errors_of_error_line.
      + apply list_elem_of_fmap. eexists. split; [|exact Hev]. reflexivity.
      + apply classify_error_tag. rewrite console_entry_lower, Hty.
        apply contains_prefix. reflexivity. }
  split; [exact Herr|].
  unfold TestEmojifusion.final_verdict, TestLanding.final_verdict,
    TestContact.final_verdict.
  rewrite Herr. simpl.
  repeat split;
    repeat match goal with |- context [if ?b then _ else _] => destruct b end;
    discriminate.
Qed.

Lemma page_error_blocks_pass_witness :
  has_errors (add_logs (console_logs (collected
    [Console (mkMsg "log" "ready"); PageError "TypeError: x is undefined"])) init)
  = true /\
  TestEmojifusion.final_verdict (add_logs (console_logs (collected
    [Console (mkMsg "log" "ready"); PageError "TypeError: x is undefined"])) init) 4
  <> TEST_PASSED /\
  TestLanding.final_verdict (add_logs (console_logs (collected
    [Console (mkMsg "log" "ready"); PageError "TypeError: x is undefined"])) init) 3 2
  <> TEST_PASSED /\
  TestContact.final_verdict (add_logs (console_logs (collected
    [Console (mkMsg "log" "ready"); PageError "TypeError: x is undefined"])) init)
    true true true
  <> TEST_PASSED.
Proof.
  apply (page_error_blocks_pass
           [Console (mkMsg "log" "ready"); PageError "TypeError: x is undefined"]
           "TypeError: x is undefined" (mkMsg "log" "ready") 4 3 2 true true true).
  left. apply list_elem_of_In. simpl. right. left. reflexivity.
Defined.

End DriverFacts.

(** ** The final verdicts in full *)

Section VerdictsInFull.

Import ConsoleDiagnostics TestEmojifusion.

(** X7: the emojifusion test ends on TEST FAILED exactly when no combo
    was found, with or without console errors, and on TEST PARTIAL exactly
    when combos were found and the errors list is not empty. *)
Theorem emojifusion_verdict_cases (diagnostics : ConsoleDiagnostics.t)
  (combos_count : Z) :
  (TestEmojifusion.final_verdict diagnostics combos_count = TEST_FAILED <->
   (combos_count <= 0)%Z) /\
  (TestEmojifusion.final_verdict diagnostics combos_count = TEST_PARTIAL <->
   (0 < combos_count)%Z /\ get_errors diagnostics <> []).
Proof.
  unfold TestEmojifusion.final_verdict, has_errors, get_errors.
  destruct (categories Errors diagnostics) as [|e es];
    destruct (Z.ltb_spec 0 combos_count); simpl;
    (split; split; intros H0; try discriminate H0; try lia; try done;
     try (destruct H0 as [? ?]; try lia; done);
     try (split; [lia | done])).
Qed.

(** X8: the landing test passes iff there is no console error and the
    page has a link and a heading, and fails iff a link or a heading is
    missing; the contact test passes iff there is no console error and the
    form, its email field and its submit button are present, and fails iff
    one of the three is missing. *)
Theorem structure_verdict_cases (diagnostics : ConsoleDiagnostics.t)
  (linkCount headingCount : Z) (hasForm hasEmailField hasSubmitButton : bool) :
  (TestLanding.final_verdict diagnostics linkCount headingCount = TEST_PASSED <->
   get_errors diagnostics = [] /\ (0 < linkCount)%Z /\ (0 < headingCount)%Z) /\
  (TestLanding.final_verdict diagnostics linkCount headingCount = TEST_FAILED <->
   (linkCount <= 0)%Z \/ (headingCount <= 0)%Z) /\
  (TestContact.final_verdict diagnostics hasForm hasEmailField hasSubmitButton
   = TEST_PASSED <->
   get_errors diagnostics = [] /\ hasForm = true /\ hasEmailField = true /\
   hasSubmitButton = true) /\
  (TestContact.final_verdict diagnostics hasForm hasEmailField hasSubmitButton
   = TEST_FAILED <->
   hasForm = false \/ hasEmailField = false \/ hasSubmitButton = false).
Proof.
  unfold TestLanding.final_verdict, TestContact.final_verdict, has_errors,
    get_errors.
  destruct (categories Errors diagnostics) as [|e es];
    destruct (Z.ltb_spec 0 linkCount), (Z.ltb_spec 0 headingCount);
    destruct hasForm, hasEmailField, hasSubmitButton; simpl;
    repeat split; intros; try discriminate; try done; try lia;
    repeat match goal with
           | H : _ /\ _ |- _ => destruct H
           | H : _ \/ _ |- _ => destruct H
           end; try discriminate; try done; try lia; auto.
Qed.

End VerdictsInFull.

(** ** PerformanceMonitor: statistics, [clear] and the two dictionaries *)

Section MonitorFacts.

Import Py PerformanceMonitor MonitorOps.

(** X10: an entry of [get_summary] carries what the getters return for
    that name, and a name without an entry is one for which the four
    getters return [None]. *)
Theorem summary_agrees_with_getters (name : string) (self : PerformanceMonitor.t) :
  match (get_summary self).1 !! name with
  | Some st =>
      count st = length (get_metric name self).1 /\
      (get_average name self).1 = Some (average st) /\
      (get_min name self).1 = Some (minimum st) /\
      (get_max name self).1 = Some (maximum st) /\
      (get_latest name self).1 = Some (latest st)
  | None =>
      (get_average name self).1 = None /\
      (get_min name self).1 = None /\
      (get_max name self).1 = None /\
      (get_latest name self).1 = None
  end.
Proof.
  rewrite get_summary_lookup.
  unfold get_average, get_min, get_max, get_latest, mbind, M_bind, mret, M_ret.
  destruct (get_metric name self) as [values self'] eqn:E. simpl.
  by destruct values.
Qed.

Lemma lookup_defaultdict_clear {V : Type} (k k' : string)
  (d : gmap string (list V)) :
  defaultdict_clear k d !! k' = if decide (k = k') then Some [] else d !! k'.
Proof.
  unfold defaultdict_clear, defaultdict_getitem.
  destruct (d !! k) as [l|] eqn:E; simpl;
    destruct (decide (k = k')) as [->|Hne];
    rewrite ?lookup_insert_eq, ?lookup_insert_ne by done; done.
Qed.

Lemma in_step_step (op : Op) (self : PerformanceMonitor.t) :
  in_step self -> in_step (step op self).
Proof.
  intros H name'. destruct op as [name value now|[name|]]; simpl.
  - rewrite !lookup_defaultdict_append.
    destruct (decide (name = name')) as [->|]; [|apply H].
    simpl. rewrite !length_app. specialize (H name').
    destruct (metrics self !! name'), (timestamps self !! name');
      simpl in *; congruence.
  - unfold clear. destruct (bool_decide (name = "")); [done|].
    destruct (bool_decide (is_Some (metrics self !! name))); [|apply H].
    simpl. rewrite !lookup_defaultdict_clear.
    destruct (decide (name = name')); [done | apply H].
  - done.
Qed.

(** X11: over any program of [record_metric] and [clear] on a new
    monitor, [self.metrics] and [self.timestamps] bind the same names, and
    the two lists of a name have the same length. *)
Theorem one_timestamp_per_sample (ops : list Op) (name : string) :
  length <$> metrics (exec ops init) !! name
  = length <$> timestamps (exec ops init) !! name.
Proof.
  assert (forall self, in_step self -> in_step (exec ops self)) as H.
  { induction ops as [|op ops IH]; intros self Hs; [done|].
    unfold exec in *. simpl. apply IH. by apply in_step_step. }
  apply (H init). intros n. done.
Qed.

(** X12: [clear(name)] for a non-empty name empties the samples of that
    name and drops it from [get_summary], keeps the key bound if it was and
    unbound if it was not, leaves every other metric and its summary entry
    alone, and a value recorded next starts a new series. *)
Theorem clear_one_metric (name other : string) (self : PerformanceMonitor.t) :
  name <> "" ->
  (get_metric name (clear (Some name) self).2).1 = [] /\
  (get_summary (clear (Some name) self).2).1 !! name = None /\
  (metrics (clear (Some name) self).2 !! name
   = (fun _ => []) <$> metrics self !! name) /\
  (other <> name ->
   metrics (clear (Some name) self).2 !! other = metrics self !! other /\
   (get_summary (clear (Some name) self).2).1 !! other
   = (get_summary self).1 !! other) /\
  (forall (value : Q) (now : string),
     (get_metric name
        (record_metric name value now (clear (Some name) self).2).2).1
     = [value]).
Proof.
  intros Hne.
  assert (metrics (clear (Some name) self).2 !! name
          = (fun _ => []) <$> metrics self !! name) as Hkey.
  { unfold clear. rewrite bool_decide_eq_false_2 by done.
    destruct (metrics self !! name) as [l|] eqn:E.
    - rewrite bool_decide_eq_true_2 by eauto. simpl.
      by rewrite lookup_defaultdict_clear, decide_True.
    - rewrite bool_decide_eq_false_2 by (intros [? ?]; done).
      simpl. by rewrite E. }
  assert ((get_metric name (clear (Some name) self).2).1 = []) as Hget.
  { unfold get_metric. cbn [fst]. unfold dict_get. rewrite Hkey.
    by destruct (metrics self !! name). }
  split; [exact Hget|].
  split; [by rewrite get_summary_lookup, Hget|].
  split; [exact Hkey|].
  split.
  - intros Ho.
    assert (metrics (clear (Some name) self).2 !! other = metrics self !! other)
      as Hother.
    { unfold clear. rewrite bool_decide_eq_false_2 by done.
      destruct (bool_decide (is_Some (metrics self !! name))); [|done].
      simpl. by rewrite lookup_defaultdict_clear, decide_False. }
    split; [exact Hother|].
    unfold get_summary. cbn [fst]. by rewrite !lookup_omap, Hother.
  - intros value now. rewrite get_metric_record_metric, decide_True by done.
    by rewrite Hget.
Qed.

Lemma clear_one_metric_witness :
  (get_metric "dom_ready"
     (clear (Some "dom_ready")
        (record_metric "dom_ready" (2 # 1) "t0" init).2).2).1 = [].
Proof.
  assert ("dom_ready" <> "") as Hne by discriminate.
  exact (proj1 (clear_one_metric "dom_ready" "page_load_time"
                  (record_metric "dom_ready" (2 # 1) "t0" init).2 Hne)).
Defined.

End MonitorFacts.

(** ** TestReporter *)

Section TestReporterFacts.

Import Py TestReporter.

Lemma count_status_from (s : string) (results : list TestResult) (n : nat) :
  fold_left (fun n r => if bool_decide (status r = s) then n + 1 else n) results n
  = n + length (filter (fun r => status r = s) results).
Proof.
  revert n. induction results as [|r results IH]; intros n; simpl; [lia|].
  rewrite IH, filter_cons.
  destruct (decide (status r = s)) as [Heq|Hne].
  - rewrite (bool_decide_eq_true_2 _ Heq). simpl. lia.
  - by rewrite (bool_decide_eq_false_2 _ Hne).
Qed.

Lemma count_status_filter (s : string) (results : list TestResult) :
  count_status s results = length (filter (fun r => status r = s) results).
Proof. unfold count_status. by rewrite count_status_from. Qed.


Lemma three_counts (results : list TestResult) :
  count_status "passed" results + count_status "failed" results
  + count_status "skipped" results <= length results /\
  (count_status "passed" results + count_status "failed" results
   + count_status "skipped" results = length results <->
   Forall (fun r => status r = "passed" \/ status r = "failed"
                    \/ status r = "skipped") results).
Proof.
  rewrite !count_status_filter.
  induction results as [|r results [IHle IHeq]]; simpl.
  - split; [lia|]. split; [constructor | done].
  - rewrite !filter_cons.
    destruct (decide (status r = "passed")) as [E1|N1];
      destruct (decide (status r = "failed")) as [E2|N2];
      destruct (decide (status r = "skipped")) as [E3|N3];
      try congruence; simpl; (split; [lia|]);
      rewrite Forall_cons; split;
      try (intros H; split; [by auto | apply IHeq; lia]);
      try (intros [_ H]; apply IHeq in H; lia).
    + intros H. exfalso. lia.
    + intros [[?|[?|?]] _]; done.
Qed.

(** X13: in the summary of [TestReporter], passed + failed + skipped
    never exceeds total, and equals it exactly when every recorded status
    is one of the strings passed, failed, skipped. *)
Theorem reporter_counts (now : Q) (self : TestReporter.t) :
  passed (get_summary now self) + failed (get_summary now self)
  + skipped (get_summary now self) <= total (get_summary now self) /\
  (passed (get_summary now self) + failed (get_summary now self)
   + skipped (get_summary now self) = total (get_summary now self) <->
   Forall (fun r => status r = "passed" \/ status r = "failed"
                    \/ status r = "skipped") (test_results self)).
Proof. apply three_counts. Qed.


End TestReporterFacts.

(** ** ClaudeAgent: the polling loop *)

Section WaitFacts.

Import Py ClaudeAgent.

(** X16: with an interval that is not positive, a positive timeout and a
    condition that never becomes true, the loop of [wait_for_condition]
    does not end, however many iterations are followed. *)
Theorem wait_for_condition_never_ends (polls : nat -> bool)
  (timeout interval : Q) (fuel : nat) :
  (interval <= 0)%Q -> (0 < timeout)%Q -> (forall k, polls k = false) ->
  wait_for_condition true polls timeout interval fuel = None.
Proof.
  intros Hi Ht Hp. unfold wait_for_condition. simpl.
  assert (forall k elapsed, (elapsed <= 0)%Q ->
            wait_loop fuel polls k elapsed timeout interval = None) as H.
  { induction fuel as [|fuel IH]; intros k elapsed He; [done|].
    simpl. assert (Qltb elapsed timeout = true) as ->
        by (apply Qltb_lt; lra).
    rewrite Hp. apply IH. lra. }
  apply H. lra.
Qed.

Lemma wait_for_condition_never_ends_witness :
  wait_for_condition true (fun _ => false) (10 # 1) 0 50 = None.
Proof.
  apply (wait_for_condition_never_ends (fun _ => false) (10 # 1) 0 50).
  - vm_compute. discriminate.
  - reflexivity.
  - reflexivity.
Defined.

End WaitFacts.
